(** * PulseStream-Connect: the setup-instructions modal

    A shallow embedding of the two revisions of [InstructionsModal] found in
    the repository:

    - [Modal]   : components/InstructionsModal.tsx, one [InstructionStep] and
                  one [CodeBlock] per command;
    - [Part000] : the unnamed revision, one [CodeBlock] for the server and one
                  for the client, each holding a block of joined lines.

    Three layers are modelled:

    - [JS]        : the values a [CodeBlock] receives as [children] and the
                    conversions the handlers apply to them;
    - [CopyState] : one [CodeBlock] instance together with the browser
                    resources its handler touches (clipboard promises, timers,
                    clock), as a deterministic step function over events;
    - [Dom]       : the rendered element tree with React's bubbling of click
                    events.

    Strings are sequences of 8-bit characters; the command templates and the
    addresses substituted into them are ASCII. *)

From Stdlib Require Import String Ascii List PeanoNat NArith Bool Lia.
Import ListNotations.
Local Open Scope string_scope.
Local Open Scope N_scope.
Local Set Warnings "-register-all".

(* ------------------------------------------------------------------ *)
(** ** Strings *)

Module Str.

(** Characters that cannot be written inside a literal. *)
Definition dq : string := String (ascii_of_nat 34) EmptyString.
Definition nl : string := String (ascii_of_nat 10) EmptyString.

(** [Array.prototype.join] on strings. *)
Fixpoint join (sep : string) (l : list string) : string :=
  match l with
  | [] => EmptyString
  | [x] => x
  | x :: rest => x ++ sep ++ join sep rest
  end.

(** [String.prototype.includes]: [x] occurs in [s] at some offset. *)
Fixpoint includes (x s : string) : bool :=
  prefix x s ||
  match s with
  | EmptyString => false
  | String _ s' => includes x s'
  end.

Definition Substring (x s : string) : Prop :=
  exists a b, s = a ++ x ++ b.

Definition isEmpty (s : string) : bool :=
  match s with EmptyString => true | _ => false end.

End Str.

(* ------------------------------------------------------------------ *)
(** ** JavaScript values reaching [CodeBlock] as [children]

    [React.ReactNode] restricted to the kinds the two handlers tell apart:
    the empty values, booleans, strings and arrays.  Numbers and elements are
    never passed by the modal and are left out. *)

Module JS.

Inductive ReactNode : Type :=
| RUndefined
| RNull
| RBool (b : bool)
| RStr (s : string)
| RArr (items : list ReactNode).

(** [!!v] *)
Definition truthy (v : ReactNode) : bool :=
  match v with
  | RUndefined | RNull => false
  | RBool b => b
  | RStr s => negb (Str.isEmpty s)
  | RArr _ => true
  end.

Definition isArray (v : ReactNode) : bool :=
  match v with RArr _ => true | _ => false end.

(** [String(v)]; an array is converted by joining with a comma, and inside a
    join [undefined] and [null] give the empty string. *)
Fixpoint toString (v : ReactNode) : string :=
  match v with
  | RUndefined => "undefined"
  | RNull => "null"
  | RBool true => "true"
  | RBool false => "false"
  | RStr s => s
  | RArr items =>
      Str.join ","
        (map (fun e => match e with
                       | RUndefined | RNull => EmptyString
                       | _ => toString e
                       end) items)
  end.

(** [v.join(sep)] for an array [v] (the empty string otherwise: the handlers
    only call it behind [Array.isArray]). *)
Definition joinWith (sep : string) (v : ReactNode) : string :=
  match v with
  | RArr items =>
      Str.join sep
        (map (fun e => match e with
                       | RUndefined | RNull => EmptyString
                       | _ => toString e
                       end) items)
  | _ => EmptyString
  end.

(** The text React puts in the DOM for [{children}]: empty values and
    booleans render nothing, arrays render their items in sequence. *)
Fixpoint displayed (v : ReactNode) : string :=
  match v with
  | RUndefined | RNull | RBool _ => EmptyString
  | RStr s => s
  | RArr items => String.concat EmptyString (map displayed items)
  end.

End JS.

(* ------------------------------------------------------------------ *)
(** ** One [CodeBlock] instance and the browser around it *)

Module CopyState.
Import JS.

(** What the copy button shows: [{copied ? 'Copied!' : <ClipboardIcon />}]. *)
Inductive Label : Type := ShowsCopied | ShowsIcon.

Record Instance : Type := mkInstance {
  children  : ReactNode;      (* the prop of the current render *)
  copied    : bool;           (* useState(false) *)
  mounted   : bool;           (* still in the component tree *)
  now       : N;              (* clock, in milliseconds *)
  timers    : list N;         (* deadlines of pending setTimeout callbacks *)
  pending   : list string;    (* payloads of unsettled writeText promises *)
  writes    : list string;    (* every writeText call made, oldest first *)
  clipboard : option string;  (* text of this instance's last fulfilled write *)
  unhandled : nat;            (* rejections no handler was attached to *)
  stale     : nat             (* setCopied calls made after unmount *)
}.

Definition init (c : ReactNode) : Instance :=
  mkInstance c false true 0 [] [] [] None 0 0.

Definition label (s : Instance) : Label :=
  if copied s then ShowsCopied else ShowsIcon.

(** [setCopied(v)].  React drops an update addressed to an instance that is
    no longer mounted; the call is counted. *)
Definition setCopied (v : bool) (s : Instance) : Instance :=
  if mounted s
  then mkInstance (children s) v (mounted s) (now s) (timers s) (pending s)
                  (writes s) (clipboard s) (unhandled s) (stale s)
  else mkInstance (children s) (copied s) (mounted s) (now s) (timers s)
                  (pending s) (writes s) (clipboard s) (unhandled s)
                  (S (stale s)).

(** [setTimeout(cb, ms)] where [cb] is the reset callback. *)
Definition setTimeout (ms : N) (s : Instance) : Instance :=
  mkInstance (children s) (copied s) (mounted s) (now s)
             (timers s ++ [now s + ms]) (pending s) (writes s) (clipboard s)
             (unhandled s) (stale s).

(** [navigator.clipboard.writeText(t)]: the request is issued and its promise
    stays pending until the browser settles it. *)
Definition writeText (t : string) (s : Instance) : Instance :=
  mkInstance (children s) (copied s) (mounted s) (now s) (timers s)
             (pending s ++ [t]) (writes s ++ [t]) (clipboard s)
             (unhandled s) (stale s).

(** The fulfilment callback: [() => { setCopied(true);
    setTimeout(() => setCopied(false), 2000); }]. *)
Definition onFulfilled (s : Instance) : Instance :=
  setTimeout 2000 (setCopied true s).

Fixpoint removeAt {A : Type} (i : nat) (l : list A) : list A :=
  match l, i with
  | [], _ => []
  | _ :: rest, O => rest
  | x :: rest, S j => x :: removeAt j rest
  end.

Definition settle (i : nat) (clip : option string) (unh : nat) (s : Instance)
  : Instance :=
  mkInstance (children s) (copied s) (mounted s) (now s) (timers s)
             (removeAt i (pending s)) (writes s) clip unh (stale s).

(** Timer callbacks whose deadline has been reached run in scheduling order;
    each is [() => setCopied(false)]. *)
Fixpoint fire (ds : list N) (s : Instance) : Instance :=
  match ds with
  | [] => s
  | _ :: rest => fire rest (setCopied false s)
  end.

Definition due (t : N) (d : N) : bool := d <=? t.

Definition advance (d : N) (s : Instance) : Instance :=
  let t := now s + d in
  let s' := mkInstance (children s) (copied s) (mounted s) t
                       (filter (fun x => negb (due t x)) (timers s))
                       (pending s) (writes s) (clipboard s) (unhandled s)
                       (stale s) in
  fire (filter (due t) (timers s)) s'.

Inductive Event : Type :=
| Click                       (* the user presses the copy button *)
| Resolve (i : nat)           (* the i-th pending write is fulfilled *)
| Reject (i : nat)            (* the i-th pending write is rejected *)
| Tick (d : N)                (* d milliseconds pass *)
| Rerender (c : ReactNode)    (* the parent renders with new children *)
| Unmount.                    (* the instance leaves the tree *)

Definition isResolve (e : Event) : bool :=
  match e with Resolve _ => true | _ => false end.

(** Events that neither fulfil a write nor unmount the instance. *)
Definition quiet (e : Event) : bool :=
  match e with Resolve _ | Unmount => false | _ => true end.

(** Time covered by a list of events. *)
Definition elapsed (evs : list Event) : N :=
  fold_right (fun e acc => match e with Tick d => d + acc | _ => acc end)
             0 evs.

Section Machine.

(** The click handler of the revision at hand. *)
Variable handleCopy : Instance -> Instance.

Definition step (s : Instance) (e : Event) : Instance :=
  match e with
  | Click => if mounted s then handleCopy s else s
  | Resolve i =>
      match nth_error (pending s) i with
      | Some t => onFulfilled (settle i (Some t) (unhandled s) s)
      | None => s
      end
  | Reject i =>
      match nth_error (pending s) i with
      | Some _ => settle i (clipboard s) (S (unhandled s)) s
      | None => s
      end
  | Tick d => advance d s
  | Rerender c =>
      if mounted s
      then mkInstance c (copied s) (mounted s) (now s) (timers s) (pending s)
                      (writes s) (clipboard s) (unhandled s) (stale s)
      else s
  | Unmount =>
      mkInstance (children s) (copied s) false (now s) (timers s) (pending s)
                 (writes s) (clipboard s) (unhandled s) (stale s)
  end.

Definition run (s : Instance) (evs : list Event) : Instance :=
  fold_left step evs s.

End Machine.

End CopyState.


(* ------------------------------------------------------------------ *)
(** ** The rendered tree and click dispatch *)

Module Dom.

(** The [onClick] props that occur in the two files. *)
Inductive Handler : Type :=
| NoHandler
| OnClose            (* onClick={onClose} *)
| StopPropagation    (* onClick={(e) => e.stopPropagation()} *)
| HandleCopy.        (* onClick={handleCopy} *)

(** Elements carry their tag, their click handler and their children; class
    names and titles play no part in any property below and are dropped. *)
Inductive Node : Type :=
| Text (s : string)
| Elem (tag : string) (onClick : Handler) (kids : list Node).

Definition el (tag : string) (kids : list Node) : Node :=
  Elem tag NoHandler kids.

Definition handlerOf (n : Node) : Handler :=
  match n with Text _ => NoHandler | Elem _ h _ => h end.

Definition kidsOf (n : Node) : list Node :=
  match n with Text _ => [] | Elem _ _ ks => ks end.

Fixpoint textContent (n : Node) : string :=
  match n with
  | Text s => s
  | Elem _ _ ks => String.concat EmptyString (map textContent ks)
  end.

(** The texts of the command blocks below a node: a [CodeBlock] is the only
    component that renders a [pre]. *)
Fixpoint commandTexts (n : Node) : list string :=
  match n with
  | Text _ => []
  | Elem tag _ ks =>
      if String.eqb tag "pre"
      then [String.concat EmptyString (map textContent ks)]
      else flat_map commandTexts ks
  end.

(** React renders a string child as a text node, an array as its items, and
    nothing for the empty values and booleans. *)
Fixpoint renderNode (v : JS.ReactNode) : list Node :=
  match v with
  | JS.RStr s => [Text s]
  | JS.RArr items => flat_map renderNode items
  | _ => []
  end.

(** *** Bubbling

    A click is delivered to the target, named by its path of child indices
    from the root, and then to each ancestor in turn, until a handler stops
    the propagation.  The log lists the callbacks that ran, each with the
    depth of the element it was attached to. *)

Definition invoke (depth : nat) (h : Handler)
  : list (nat * Handler) * bool :=
  match h with
  | NoHandler => ([], true)
  | StopPropagation => ([], false)
  | OnClose => ([(depth, OnClose)], true)
  | HandleCopy => ([(depth, HandleCopy)], true)
  end.

Fixpoint click (depth : nat) (n : Node) (path : list nat)
  : option (list (nat * Handler) * bool) :=
  match path with
  | [] => Some (invoke depth (handlerOf n))
  | i :: rest =>
      match nth_error (kidsOf n) i with
      | None => None
      | Some k =>
          match click (S depth) k rest with
          | None => None
          | Some (log, true) =>
              let (more, go) := invoke depth (handlerOf n) in
              Some ((log ++ more)%list, go)
          | Some (log, false) => Some (log, false)
          end
      end
  end.

Definition isClose (h : Handler) : bool :=
  match h with OnClose => true | _ => false end.

(** How many times [onClose] was called. *)
Definition closeCalls (log : list (nat * Handler)) : nat :=
  length (filter (fun x => isClose (snd x)) log).

(** Whether the handler at the given depth ran. *)
Definition ranAt (depth : nat) (log : list (nat * Handler)) : bool :=
  existsb (fun x => Nat.eqb (fst x) depth) log.

(** No [onClose] anywhere in the subtree. *)
Fixpoint closeFree (n : Node) : bool :=
  match n with
  | Text _ => true
  | Elem _ h ks => negb (isClose h) && forallb closeFree ks
  end.

(** Modelled from the spec: the icon components (icons/ClipboardIcon,
    icons/XIcon, icons/InfoIcon) are not among the sources; the spec knows
    them as the default label of a control, with no behaviour of their own,
    so each is a leaf without handler. *)
Definition ClipboardIcon : Node := el "svg" [].
Definition XIcon : Node := el "svg" [].
Definition InfoIcon : Node := el "svg" [].

End Dom.

(** Modelled from the spec: the [Connection] type of ../types is not among
    the sources; the spec gives its fields, three strings. *)
Record Connection : Type := mkConnection {
  name : string;
  serverIp : string;
  clientIp : string
}.

Definition office : Connection := mkConnection "Office" "10.0.0.5" "10.0.0.9".

(* ------------------------------------------------------------------ *)
(** ** components/InstructionsModal.tsx *)

Module Modal.
Import JS CopyState Dom Str.

(** [handleCopy]:
    [if (!children) return; const textToCopy = String(children);
     navigator.clipboard.writeText(textToCopy).then(...)]. *)
Definition handleCopy (s : Instance) : Instance :=
  if negb (truthy (children s)) then s
  else
    let textToCopy := toString (children s) in
    writeText textToCopy s.

Definition CodeBlock (copied : bool) (children : ReactNode) : Node :=
  el "div"
     [ Elem "button" HandleCopy
            [ if copied then Text "Copied!" else ClipboardIcon ];
       el "pre" [ el "code" (renderNode children) ] ].

Definition VerificationResult (children : list Node) : Node :=
  el "div" [ el "div" [ InfoIcon ]; el "div" children ].

Record StepProps : Type := mkStep {
  step : string;
  title : string;
  command : option string;            (* command?: string *)
  explanation : list Node;
  verification : option (list Node)   (* verification?: React.ReactNode *)
}.

(** [{command && <CodeBlock>{command}</CodeBlock>}] and
    [{verification && <VerificationResult>...}]: a missing or empty operand
    renders nothing. *)
Definition InstructionStep (copied : bool) (p : StepProps) : Node :=
  el "div"
     ([ el "h4" [ el "span" [ Text (step p); Text "." ]; Text (title p) ];
        el "div" (explanation p) ]
      ++ match command p with
         | Some c => if isEmpty c then [] else [ CodeBlock copied (RStr c) ]
         | None => []
         end
      ++ match verification p with
         | Some v => [ VerificationResult v ]
         | None => []
         end)%list.

Definition serverSteps (connection : Connection) : list StepProps :=
  [ mkStep "1" "Find Your Default Firewall Zone (Optional)"
      (Some "firewall-cmd --get-default-zone")
      [ el "p" [ Text "This command identifies your system's main firewall profile (zone). The next steps will use this command automatically, so you don't need to manually edit anything. This step is just for your information." ] ]
      (Some [ el "p" [ el "strong" [ Text "Expected Result:" ];
                       Text " The output will be a single word, which is the name of your default zone (e.g., `public`, `FedoraWorkstation`, `home`)." ] ]);
    mkStep "2" "Open Firewall Port"
      (Some "sudo firewall-cmd --zone=$(firewall-cmd --get-default-zone) --add-port=4713/tcp --permanent")
      [ el "p" [ Text "This command opens the PulseAudio port (`4713`) in your system's default firewall zone. The `--permanent` flag ensures this rule persists after a reboot." ];
        el "p" [ Text "The `$(firewall-cmd --get-default-zone)` part automatically inserts your default zone name, so you can copy and paste the entire command without changes." ] ]
      None;
    mkStep "3" "Reload & Verify Firewall"
      (Some "sudo firewall-cmd --reload && sudo firewall-cmd --zone=$(firewall-cmd --get-default-zone) --list-ports")
      [ el "p" [ Text "This reloads the firewall to apply your new rule, then immediately lists the ports for your default zone to confirm the change. This command is also ready to be copied and pasted directly." ] ]
      (Some [ el "p" [ el "strong" [ Text "Expected Result:" ];
                       Text " You must see `4713/tcp` in the output list. If not, something is unusual about your firewall setup, and you may need to investigate your active zones manually." ] ]);
    mkStep "4" "Enable Network Audio (Temporarily)"
      (Some ("pactl load-module module-native-protocol-tcp auth-ip-acl=127.0.0.1;"
             ++ clientIp connection))
      [ el "p" [ Text "This uses PulseAudio's command-line tool (";
                 el "code" [ Text "pactl" ];
                 Text ") to load the network streaming module for the current session. ";
                 el "strong" [ Text "This does not modify any system files." ] ];
        el "ul"
           [ el "li" [ el "code" [ Text "load-module ..." ];
                       Text ": Loads the module that enables network streaming." ];
             el "li" [ el "code" [ Text "auth-ip-acl=..." ];
                       Text ": A security measure that specifies which IPs can connect. We allow the server itself (";
                       el "code" [ Text "127.0.0.1" ];
                       Text ") and your specified client machine (";
                       el "code" [ Text (clientIp connection) ];
                       Text ")." ] ];
        el "p" [ el "strong" [ Text "Note:" ];
                 Text " This setting is temporary. You will need to run this command again if you reboot the server." ] ]
      None ].

Definition clientSteps (connection : Connection) : list StepProps :=
  [ mkStep "1" "Test Connection to Server"
      (Some ("nc -zv " ++ serverIp connection ++ " 4713"))
      [ el "p" [ Text "Use the network utility ";
                 el "code" [ Text "nc" ];
                 Text " (netcat) to check if the server's port ";
                 el "code" [ Text "4713" ];
                 Text " is reachable from the client. This is the most important test to ensure your machines can communicate." ] ]
      (Some [ el "p" [ el "strong" [ Text "Expected Result:" ];
                       Text (" A " ++ dq ++ "Connection to ... succeeded!" ++ dq ++ " message.") ];
              el "p" [ Text "Troubleshooting:" ];
              el "ul"
                 [ el "li" [ Text "If it says ";
                             el "strong" [ Text (dq ++ "Connection refused," ++ dq) ];
                             Text " the server's firewall is likely blocking you, or the PulseAudio module (Server Step 4) isn't loaded." ];
                   el "li" [ Text "If it ";
                             el "strong" [ Text "hangs or times out," ];
                             Text " you may have a network issue (are they on the same WiFi?) or the Server IP address is incorrect." ] ] ]);
    mkStep "2" "Set the PULSE_SERVER Environment Variable"
      (Some ("export PULSE_SERVER=tcp:" ++ serverIp connection))
      [ el "p" [ Text "This command tells PulseAudio-aware applications on this client where to find the audio server. It redirects their audio output over the network to your server machine." ];
        el "p" [ el "strong" [ Text "Note:" ];
                 Text " This setting is temporary and only applies to the current terminal session. To make it permanent, add this line to your shell's startup file (e.g., ";
                 el "code" [ Text "~/.bashrc" ];
                 Text " or ";
                 el "code" [ Text "~/.zshrc" ];
                 Text ")." ] ]
      None;
    mkStep "3" "Test Audio with an Application"
      (Some ("mpv --ao=pulse " ++ dq
             ++ "https://www.youtube.com/watch?v=dQw4w9WgXcQ" ++ dq))
      [ el "p" [ Text "Launch a media player like ";
                 el "code" [ Text "mpv" ];
                 Text " and explicitly tell it to use PulseAudio with ";
                 el "code" [ Text "--ao=pulse" ];
                 Text ". The application will run on your client machine, but the audio should now be heard from your server machine's speakers." ];
        el "p" [ Text "Any application launched from this terminal will now send its audio to the server." ] ]
      None ].

(** The steps of a section, the i-th rendered with the flag of the i-th
    [CodeBlock] instance, counted from [base]. *)
Fixpoint renderSteps (copiedAt : nat -> bool) (base : nat)
         (steps : list StepProps) : list Node :=
  match steps with
  | [] => []
  | p :: rest =>
      InstructionStep (copiedAt base) p :: renderSteps copiedAt (S base) rest
  end.

Definition serverSection (connection : Connection) (copiedAt : nat -> bool)
  : Node :=
  el "div"
     [ el "h3" [ Text "On the Server Machine (";
                 Text (serverIp connection); Text ")" ];
       el "p" [ Text "Run these commands on the machine that will be ";
                el "strong" [ Text "sending" ]; Text " the audio." ];
       el "div" (renderSteps copiedAt 0 (serverSteps connection)) ].

Definition clientSection (connection : Connection) (copiedAt : nat -> bool)
  : Node :=
  el "div"
     [ el "h3" [ Text "On the Client Machine (";
                 Text (clientIp connection); Text ")" ];
       el "p" [ Text "Run these commands on the machine that will be ";
                el "strong" [ Text "playing" ];
                Text " the audio (i.e., has speakers)." ];
       el "div" (renderSteps copiedAt 4 (clientSteps connection)) ].

(** The backdrop carries [onClose], the panel stops propagation, the close
    button in the panel's header carries [onClose] again. *)
Definition InstructionsModal (connection : Connection)
           (copiedAt : nat -> bool) : Node :=
  Elem "div" OnClose
    [ Elem "div" StopPropagation
        [ el "div"
             [ el "h2" [ Text ("Setup: " ++ dq); Text (name connection);
                         Text dq ];
               Elem "button" OnClose [ XIcon ] ];
          el "div"
             [ serverSection connection copiedAt;
               clientSection connection copiedAt ] ] ].

End Modal.

(* ------------------------------------------------------------------ *)
(** ** The unnamed revision *)

Module Part000.
Import JS CopyState Dom Str.

(** [handleCopy]:
    [const textToCopy = Array.isArray(children) ? children.join('\n')
                                                : String(children);
     navigator.clipboard.writeText(textToCopy).then(...)]. *)
Definition handleCopy (s : Instance) : Instance :=
  let textToCopy :=
    if isArray (children s) then joinWith nl (children s)
    else toString (children s) in
  writeText textToCopy s.

(** The [title] prop is accepted and not rendered. *)
Definition CodeBlock (title : string) (copied : bool) (children : ReactNode)
  : Node :=
  el "div"
     [ Elem "button" HandleCopy
            [ if copied then Text "Copied!" else ClipboardIcon ];
       el "pre" [ el "code" (renderNode children) ] ].

(** Every line is a single-quoted literal, the last one too: its
    [${connection.clientIp}] is plain text, not a substitution. *)
Definition serverCommands (connection : Connection) : string :=
  join nl
    [ "# 1. Open PulseAudio Port (4713/tcp) on the server.";
      "# This allows the client machine to connect to the PulseAudio daemon.";
      "sudo firewall-cmd --add-port=4713/tcp --permanent";
      EmptyString;
      "# 2. Reload the firewall to apply the new rule.";
      "sudo firewall-cmd --reload";
      EmptyString;
      "# 3. Verify the port is open.";
      "# You should see 4713/tcp in the output list.";
      "sudo firewall-cmd --list-ports";
      EmptyString;
      "# NOTE: You may also need to edit /etc/pulse/default.pa on the server to load the TCP module.";
      "# Add this line: load-module module-native-protocol-tcp auth-ip-acl=127.0.0.1;${connection.clientIp}" ].

(** Template literals throughout. *)
Definition clientCommands (connection : Connection) : string :=
  join nl
    [ "# 1. Test connection to the server's PulseAudio port.";
      "# If this command says " ++ dq ++ "succeeded!" ++ dq
        ++ ", you're ready for the next step.";
      "nc -zv " ++ serverIp connection ++ " 4713";
      EmptyString;
      "# 2. Set the PULSE_SERVER environment variable.";
      "# This tells applications on this client machine to send their audio to the server.";
      "export PULSE_SERVER=tcp:" ++ serverIp connection;
      EmptyString;
      "# 3. Test with an application, like mpv.";
      "# The video will play locally, but the audio should come from the server's speakers.";
      "mpv --vo=x11 --ao=pulse https://www.youtube.com/watch?v=dQw4w9WgXcQ" ].

Definition serverSection (connection : Connection) (copiedAt : nat -> bool)
  : Node :=
  el "div"
     [ el "h3" [ Text "On the Server Machine (";
                 Text (serverIp connection); Text ")" ];
       el "p" [ Text "Run these commands on the machine that will be sending the audio." ];
       CodeBlock "Server Commands" (copiedAt 0%nat)
                 (RStr (serverCommands connection)) ].

Definition clientSection (connection : Connection) (copiedAt : nat -> bool)
  : Node :=
  el "div"
     [ el "h3" [ Text "On the Client Machine (";
                 Text (clientIp connection); Text ")" ];
       el "p" [ Text "Run these commands on the machine that will be playing the audio (i.e., has speakers)." ];
       CodeBlock "Client Commands" (copiedAt 1%nat)
                 (RStr (clientCommands connection)) ].

Definition InstructionsModal (connection : Connection)
           (copiedAt : nat -> bool) : Node :=
  Elem "div" OnClose
    [ Elem "div" StopPropagation
        [ el "div"
             [ el "h2" [ Text ("Setup Instructions for " ++ dq);
                         Text (name connection); Text dq ];
               Elem "button" OnClose [ XIcon ] ];
          el "div"
             [ serverSection connection copiedAt;
               clientSection connection copiedAt ] ] ].

End Part000.

(* ------------------------------------------------------------------ *)
(** ** Either revision *)

Inductive Revision : Type := Stepwise | SingleBlock.

Definition handleCopyOf (r : Revision)
  : CopyState.Instance -> CopyState.Instance :=
  match r with
  | Stepwise => Modal.handleCopy
  | SingleBlock => Part000.handleCopy
  end.

Definition modalOf (r : Revision) : Connection -> (nat -> bool) -> Dom.Node :=
  match r with
  | Stepwise => Modal.InstructionsModal
  | SingleBlock => Part000.InstructionsModal
  end.

Definition serverSectionOf (r : Revision)
  : Connection -> (nat -> bool) -> Dom.Node :=
  match r with
  | Stepwise => Modal.serverSection
  | SingleBlock => Part000.serverSection
  end.

Definition clientSectionOf (r : Revision)
  : Connection -> (nat -> bool) -> Dom.Node :=
  match r with
  | Stepwise => Modal.clientSection
  | SingleBlock => Part000.clientSection
  end.

(** Paths are counted from the root: the backdrop is [[]], the content panel
    [[0]], its header [[0; 0]] and the close button [[0; 0; 1]]. *)
Definition insidePanel (path : list nat) : bool :=
  match path with
  | O :: _ => true
  | _ => false
  end.

Definition onCloseButton (path : list nat) : bool :=
  match path with
  | O :: O :: 1%nat :: _ => true
  | _ => false
  end.
(* ------------------------------------------------------------------ *)
(** ** Statements under test that the code does not meet *)

Module Claims.
Import JS CopyState Dom Str.

(** Timer supersession as the specification words it: a second copy within
    the window keeps the label until 2000 ms after the last trigger. *)
Definition supersession : Prop :=
  forall (r : Revision) (gap d : N),
    gap < 2000 -> d < 2000 ->
    copied (run (handleCopyOf r) (init (RStr "ls"))
              [Click; Resolve 0; Tick gap; Click; Resolve 0; Tick d]) = true.

(** Cleanup on teardown as the specification words it: unmounting cancels
    the pending reset, so no setter call reaches an unmounted instance. *)
Definition cleanup_on_unmount : Prop :=
  forall (r : Revision) (c : ReactNode) (before later : list Event),
    timers (run (handleCopyOf r) (init c) (before ++ [Unmount])) = [] /\
    stale (run (handleCopyOf r) (init c) (before ++ Unmount :: later)) = 0%nat.

(** The three client commands in the form the specification gives them, for
    every revision. *)
Definition client_commands : Prop :=
  forall (r : Revision) (connection : Connection) (copiedAt : nat -> bool),
    let blocks := commandTexts (clientSectionOf r connection copiedAt) in
    (exists b, In b blocks /\
               Substring ("nc -zv " ++ serverIp connection ++ " 4713") b) /\
    (exists b, In b blocks /\
               Substring ("export PULSE_SERVER=tcp:" ++ serverIp connection) b) /\
    (exists b url, In b blocks /\
                   Substring ("mpv --ao=pulse " ++ dq ++ url ++ dq) b).

(** Click containment as the specification words it: no click inside the
    content panel calls [onClose]. *)
Definition content_clicks_never_close : Prop :=
  forall (r : Revision) (connection : Connection) (copiedAt : nat -> bool)
         (path : list nat) (log : list (nat * Handler)) (go : bool),
    insidePanel path = true ->
    click 0 (modalOf r connection copiedAt) path = Some (log, go) ->
    closeCalls log = 0%nat.



End Claims.

(* ------------------------------------------------------------------ *)
(** ** Measures on runs and on trees used by the further properties *)

Module Measures.
Import JS CopyState Dom.

(** Events that never give the instance a truthy [children]. *)
Definition keepsFalsy (e : Event) : bool :=
  match e with Rerender c => negb (truthy c) | _ => true end.

(** A pending reset lies strictly ahead of the clock and at most 2000 ms
    ahead. *)
Definition ahead (s : Instance) (t : N) : Prop :=
  now s < t /\ t <= now s + 2000.

Definition isCopy (h : Handler) : bool :=
  match h with HandleCopy => true | _ => false end.

(** How many times [handleCopy] was called. *)
Definition copyCalls (log : list (nat * Handler)) : nat :=
  length (filter (fun x => isCopy (snd x)) log).

(** For the clicks landing in a subtree: the longest log any of them
    produces, and the longest log among those still propagating when they
    leave the subtree. *)
Fixpoint maxLog (n : Node) : nat * nat :=
  match n with
  | Text _ => (0, 0)%nat
  | Elem _ h ks =>
      let inner := fold_right Nat.max 0%nat (map (fun k => fst (maxLog k)) ks) in
      let out := fold_right Nat.max 0%nat (map (fun k => snd (maxLog k)) ks) in
      match h with
      | StopPropagation => (Nat.max inner out, 0%nat)
      | NoHandler => (Nat.max inner out, out)
      | OnClose | HandleCopy => (Nat.max inner (S out), S out)
      end
  end.

(** The texts of the [h2] and [h3] headings below a node, in document
    order. *)
Fixpoint headings (n : Node) : list string :=
  match n with
  | Text _ => []
  | Elem tag _ ks =>
      if (String.eqb tag "h2" || String.eqb tag "h3")%bool
      then [String.concat EmptyString (map textContent ks)]
      else flat_map headings ks
  end.

End Measures.

(* ------------------------------------------------------------------ *)
(** ** Properties of the instance machine *)

Module CopyStateFacts.
Import JS CopyState.
#[local] Arguments N.add : simpl never.
#[local] Arguments N.leb : simpl never.
#[local] Arguments N.ltb : simpl never.

Ltac unfold_ops :=
  unfold onFulfilled, setTimeout, setCopied, writeText, settle, label in *.

Lemma removeAt_length {A : Type} (i : nat) (l : list A) :
  (length (removeAt i l) <= length l)%nat.
Proof.
  revert i; induction l as [|x l IH]; intros [|i]; simpl; auto.
  specialize (IH i); lia.
Qed.

(** *** Timer callbacks *)

Lemma fire_copied ds s :
  copied (fire ds s) =
  if mounted s
  then copied s && match ds with [] => true | _ => false end
  else copied s.
Proof.
  revert s; induction ds as [|d ds IH]; intros s; simpl.
  - destruct (mounted s); [apply eq_sym, andb_true_r | reflexivity].
  - rewrite IH; unfold setCopied.
    destruct (mounted s) eqn:M; simpl; rewrite ?M.
    + apply eq_sym, andb_false_r.
    + reflexivity.
Qed.

Lemma fire_stale ds s :
  stale (fire ds s) =
  if mounted s then stale s else (stale s + length ds)%nat.
Proof.
  revert s; induction ds as [|d ds IH]; intros s; simpl.
  - destruct (mounted s); lia.
  - rewrite IH; unfold setCopied.
    destruct (mounted s) eqn:M; simpl; rewrite ?M; lia.
Qed.

Lemma fire_frame ds s :
  children (fire ds s) = children s /\ mounted (fire ds s) = mounted s /\
  now (fire ds s) = now s /\ timers (fire ds s) = timers s /\
  pending (fire ds s) = pending s /\ writes (fire ds s) = writes s /\
  clipboard (fire ds s) = clipboard s /\ unhandled (fire ds s) = unhandled s.
Proof.
  revert s; induction ds as [|d ds IH]; intros s; simpl.
  - repeat split.
  - specialize (IH (setCopied false s)).
    unfold setCopied in *; destruct (mounted s); simpl in *; exact IH.
Qed.

Lemma filter_nil_existsb {A : Type} (f : A -> bool) (l : list A) :
  match filter f l with [] => true | _ => false end = negb (existsb f l).
Proof.
  induction l as [|x l IH]; simpl; [reflexivity|].
  destruct (f x); simpl; [reflexivity | exact IH].
Qed.

(** The flag after [d] milliseconds: it survives exactly when no pending
    reset has come due. *)
Lemma advance_copied d s :
  copied (advance d s) =
  if mounted s
  then copied s && negb (existsb (due (now s + d)) (timers s))
  else copied s.
Proof.
  unfold advance; rewrite fire_copied; simpl.
  rewrite filter_nil_existsb; reflexivity.
Qed.

Lemma advance_timers d s :
  timers (advance d s) =
  filter (fun x => negb (due (now s + d) x)) (timers s).
Proof. unfold advance. now destruct (fire_frame (filter (due (now s + d)) (timers s))
  (mkInstance (children s) (copied s) (mounted s) (now s + d)
     (filter (fun x => negb (due (now s + d) x)) (timers s))
     (pending s) (writes s) (clipboard s) (unhandled s) (stale s)))
  as (_ & _ & _ & H & _). Qed.

Lemma advance_now d s : now (advance d s) = now s + d.
Proof. unfold advance.
  match goal with |- now (fire ?l ?x) = _ =>
    now destruct (fire_frame l x) as (_ & _ & H & _) end. Qed.

Lemma advance_mounted d s : mounted (advance d s) = mounted s.
Proof. unfold advance.
  match goal with |- mounted (fire ?l ?x) = _ =>
    now destruct (fire_frame l x) as (_ & H & _) end. Qed.

Lemma advance_stale d s :
  stale (advance d s) =
  if mounted s then stale s
  else (stale s + length (filter (due (now s + d)) (timers s)))%nat.
Proof. unfold advance; rewrite fire_stale; reflexivity. Qed.

Lemma advance_requests d s :
  pending (advance d s) = pending s /\ writes (advance d s) = writes s /\
  clipboard (advance d s) = clipboard s /\ children (advance d s) = children s.
Proof. unfold advance.
  match goal with |- context [fire ?l ?x] =>
    destruct (fire_frame l x) as (H1 & _ & _ & _ & H2 & H3 & H4 & _) end.
  auto. Qed.

(** *** The click handlers *)

(** Either handler returns without effect or issues exactly one request. *)
Lemma handleCopyOf_cases r s :
  handleCopyOf r s = s \/ exists t, handleCopyOf r s = writeText t s.
Proof.
  destruct r; simpl.
  - unfold Modal.handleCopy. destruct (negb (truthy (children s))); eauto.
  - unfold Part000.handleCopy. eauto.
Qed.

Lemma handleCopyOf_string r cmd s :
  cmd <> EmptyString -> children s = RStr cmd ->
  handleCopyOf r s = writeText cmd s.
Proof.
  intros Hne Hc; destruct r; simpl.
  - unfold Modal.handleCopy; rewrite Hc; simpl.
    destruct cmd; [congruence | reflexivity].
  - unfold Part000.handleCopy; rewrite Hc; reflexivity.
Qed.

(** *** How the flag can change in one step *)

Lemma step_sets_copied r s e :
  copied s = false -> copied (step (handleCopyOf r) s e) = true ->
  exists i t, e = Resolve i /\ nth_error (pending s) i = Some t.
Proof.
  intros Hf Ht; destruct e as [|i|i|d|c|]; simpl in Ht.
  - destruct (mounted s); [|congruence].
    destruct (handleCopyOf_cases r s) as [E|[t E]]; rewrite E in Ht;
      simpl in Ht; congruence.
  - destruct (nth_error (pending s) i) as [t|] eqn:E; [eauto | congruence].
  - destruct (nth_error (pending s) i); simpl in Ht; congruence.
  - rewrite advance_copied, Hf in Ht. destruct (mounted s); discriminate.
  - destruct (mounted s); simpl in Ht; congruence.
  - congruence.
Qed.

Lemma step_clears_copied r s e :
  copied s = true -> copied (step (handleCopyOf r) s e) = false ->
  exists d t, e = Tick d /\ In t (timers s) /\ t <= now s + d.
Proof.
  intros Ht Hf; destruct e as [|i|i|d|c|]; simpl in Hf.
  - destruct (mounted s); [|congruence].
    destruct (handleCopyOf_cases r s) as [E|[t E]]; rewrite E in Hf;
      simpl in Hf; congruence.
  - destruct (nth_error (pending s) i) as [t|]; [|congruence].
    unfold_ops; simpl in Hf. destruct (mounted s); simpl in Hf; congruence.
  - destruct (nth_error (pending s) i); simpl in Hf; congruence.
  - rewrite advance_copied, Ht in Hf.
    destruct (mounted s); [|discriminate]. simpl in Hf.
    apply negb_false_iff, existsb_exists in Hf.
    destruct Hf as (t & Hin & Hdue). exists d, t. repeat split; auto.
    unfold due in Hdue. now apply N.leb_le.
  - destruct (mounted s); simpl in Hf; congruence.
  - congruence.
Qed.

(** A raised flag traces back to a fulfilled write. *)
Lemma copied_has_cause r s evs :
  copied s = false -> copied (run (handleCopyOf r) s evs) = true ->
  exists pre i t post,
    evs = (pre ++ Resolve i :: post)%list /\
    nth_error (pending (run (handleCopyOf r) s pre)) i = Some t.
Proof.
  revert s; induction evs as [|e evs IH]; intros s Hf Ht; simpl in Ht.
  - congruence.
  - destruct (copied (step (handleCopyOf r) s e)) eqn:E.
    + destruct (step_sets_copied r s e Hf E) as (i & t & -> & Hp).
      exists [], i, t, evs; auto.
    + destruct (IH _ E Ht) as (pre & i & t & post & -> & Hp).
      exists (e :: pre), i, t, post; auto.
Qed.

(** *** Counting down one pending reset *)



Lemma run_cons h s e evs : run h s (e :: evs) = run h (step h s e) evs.
Proof. reflexivity. Qed.



(** The state after two fulfilled copies, [gap] milliseconds apart. *)
Lemma two_copies_state r cmd t0 gap :
  cmd <> EmptyString -> gap < 2000 ->
  run (handleCopyOf r) (init (RStr cmd))
      [Tick t0; Click; Resolve 0; Tick gap; Click; Resolve 0]
  = mkInstance (RStr cmd) true true (t0 + gap)
               [t0 + 2000; t0 + gap + 2000] [] [cmd; cmd] (Some cmd) 0 0.
Proof.
  intros Hne Hg.
  assert (H : forall s, children s = RStr cmd ->
                        handleCopyOf r s = writeText cmd s)
    by (intros; now apply handleCopyOf_string).
  unfold run, init; cbn [fold_left step].
  unfold advance at 2; cbn.
  rewrite H by reflexivity; cbn.
  unfold advance; cbn; unfold due.
  destruct (N.leb_spec (0 + t0 + 2000) (0 + t0 + gap)); [lia|]; cbn.
  rewrite H by reflexivity; cbn. reflexivity.
Qed.

Lemma nth_error_snoc {A : Type} (l : list A) (x : A) :
  nth_error (l ++ [x]) (length l) = Some x.
Proof. induction l; simpl; auto. Qed.

End CopyStateFacts.

(* ------------------------------------------------------------------ *)
(** ** The copy control *)

Section CopyControl.
Import JS CopyState CopyStateFacts.

(** C1. For every non-empty command string shown in a CodeBlock, of either
    revision, a click on the copy button issues exactly one writeText request,
    its payload is the displayed text unchanged, and once that request is
    fulfilled the clipboard holds exactly that text. *)
Theorem copy_writes_displayed_text :
  forall (r : Revision) (cmd : string) (s : Instance),
    cmd <> EmptyString -> mounted s = true -> children s = RStr cmd ->
    let s1 := step (handleCopyOf r) s Click in
    displayed (children s) = cmd /\
    writes s1 = (writes s ++ [cmd])%list /\
    pending s1 = (pending s ++ [cmd])%list /\
    clipboard (step (handleCopyOf r) s1 (Resolve (length (pending s))))
      = Some cmd.
Proof.
  intros r cmd s Hne Hm Hc; simpl.
  rewrite Hm, (handleCopyOf_string r cmd s Hne Hc), Hc; simpl.
  repeat split.
  rewrite nth_error_snoc. unfold_ops; simpl. now rewrite Hm.
Qed.

Lemma copy_writes_displayed_text_witness :
  writes (step Modal.handleCopy
               (init (RStr "firewall-cmd --get-default-zone")) Click)
  = ["firewall-cmd --get-default-zone"] /\
  clipboard (run Modal.handleCopy
                 (init (RStr "firewall-cmd --get-default-zone"))
                 [Click; Resolve 0])
  = Some "firewall-cmd --get-default-zone".
Proof.
  destruct (copy_writes_displayed_text Stepwise
              "firewall-cmd --get-default-zone"
              (init (RStr "firewall-cmd --get-default-zone")))
    as (_ & Hw & _ & Hc).
  - discriminate.
  - reflexivity.
  - reflexivity.
  - split; [exact Hw | exact Hc].
Defined.




(** C6. A rejected write changes neither the flag nor the label, schedules no
    reset, issues no further request (no retry) and leaves the clipboard as it
    was; the only trace is one rejection nobody handles.  Over a whole run in
    which no write is ever fulfilled the flag stays false. *)
Theorem rejected_write_is_silent :
  forall (r : Revision) (s : Instance) (i : nat)
         (c : ReactNode) (evs : list Event),
    (let s' := step (handleCopyOf r) s (Reject i) in
     copied s' = copied s /\ label s' = label s /\
     timers s' = timers s /\ writes s' = writes s /\
     clipboard s' = clipboard s /\ mounted s' = mounted s /\
     (length (pending s') <= length (pending s))%nat /\
     (unhandled s' <= S (unhandled s))%nat) /\
    (existsb isResolve evs = false ->
     copied (run (handleCopyOf r) (init c) evs) = false).
Proof.
  intros r s i c evs; split.
  - simpl. destruct (nth_error (pending s) i); unfold_ops; simpl;
      repeat split; auto using removeAt_length.
  - intros Hno.
    destruct (copied (run (handleCopyOf r) (init c) evs)) eqn:E; [|reflexivity].
    destruct (copied_has_cause r (init c) evs eq_refl E)
      as (pre & j & t & post & -> & _).
    rewrite existsb_app in Hno; simpl in Hno.
    rewrite orb_true_r in Hno; discriminate.
Qed.

Lemma rejected_write_is_silent_witness :
  copied (run Modal.handleCopy (init (RStr "sudo firewall-cmd --reload"))
            [Click; Reject 0; Tick 5000; Click; Reject 0]) = false.
Proof.
  apply (rejected_write_is_silent Stepwise
           (init RNull) 0%nat (RStr "sudo firewall-cmd --reload")
           [Click; Reject 0; Tick 5000; Click; Reject 0]).
  reflexivity.
Defined.




(** C10. The flag starts false.  Along every run from mount, a true flag has
    a cause: an earlier event fulfilled a write that was pending at that
    moment.  In one step the flag goes from false to true only by the
    fulfilment of a pending write, and from true to false only by time
    reaching the deadline of a pending reset.  Clicks, rejections, re-renders
    and unmounting leave it as it is. *)
Theorem copied_only_after_success :
  forall (r : Revision) (c : ReactNode) (evs : list Event)
         (s : Instance) (e : Event),
    copied (init c) = false /\
    (copied (run (handleCopyOf r) (init c) evs) = true ->
     exists pre i t post,
       evs = (pre ++ Resolve i :: post)%list /\
       nth_error (pending (run (handleCopyOf r) (init c) pre)) i = Some t) /\
    (copied s = false -> copied (step (handleCopyOf r) s e) = true ->
     exists i t, e = Resolve i /\ nth_error (pending s) i = Some t) /\
    (copied s = true -> copied (step (handleCopyOf r) s e) = false ->
     exists d t, e = Tick d /\ In t (timers s) /\ t <= now s + d) /\
    (forall i c',
        copied (step (handleCopyOf r) s Click) = copied s /\
        copied (step (handleCopyOf r) s (Reject i)) = copied s /\
        copied (step (handleCopyOf r) s (Rerender c')) = copied s /\
        copied (step (handleCopyOf r) s Unmount) = copied s).
Proof.
  intros r c evs s e.
  split; [reflexivity|].
  split; [apply copied_has_cause; reflexivity|].
  split; [apply step_sets_copied|].
  split; [apply step_clears_copied|].
  intros i c'; simpl; repeat split.
  - destruct (mounted s); [|reflexivity].
    destruct (handleCopyOf_cases r s) as [E|[t E]]; now rewrite E.
  - now destruct (nth_error (pending s) i).
  - now destruct (mounted s).
Qed.

Lemma copied_only_after_success_witness :
  (exists pre i t post,
      [Click; Resolve 0] = (pre ++ Resolve i :: post)%list /\
      nth_error (pending (run Modal.handleCopy (init (RStr "ls")) pre)) i
      = Some t) /\
  (exists i t,
      Resolve 0 = Resolve i /\
      nth_error (pending (step Modal.handleCopy (init (RStr "ls")) Click)) i
      = Some t).
Proof.
  destruct (copied_only_after_success Stepwise (RStr "ls")
              [Click; Resolve 0]
              (step Modal.handleCopy (init (RStr "ls")) Click)
              (Resolve 0))
    as (_ & Hrun & Hup & _).
  split.
  - apply Hrun. reflexivity.
  - apply Hup; reflexivity.
Defined.

(** C2, as stated, fails: with two fulfilled copies 1000 ms apart the label is
    back to the icon 1000 ms after the second one. *)
Lemma supersession_fails : ~ Claims.supersession.
Proof.
  intros H.
  specialize (H Stepwise 1000 1000 eq_refl eq_refl).
  vm_compute in H. discriminate.
Qed.

(** C2, amended.  A second copy fulfilled [gap] < 2000 ms after the first
    cancels nothing: both resets are pending, one due 2000 ms after each
    fulfilment.  The label reads Copied! until 2000 ms after the first
    fulfilment and shows the icon from then on; the reset of the second copy
    is still pending at that point and changes nothing when it fires. *)
Theorem second_copy_keeps_first_reset :
  forall (r : Revision) (cmd : string) (t0 gap d : N),
    cmd <> EmptyString -> gap < 2000 ->
    let s2 := run (handleCopyOf r) (init (RStr cmd))
                [Tick t0; Click; Resolve 0; Tick gap; Click; Resolve 0] in
    let s3 := step (handleCopyOf r) s2 (Tick d) in
    timers s2 = [t0 + 2000; t0 + gap + 2000] /\
    copied s2 = true /\
    copied s3 = (gap + d <? 2000) /\
    label s3 = (if gap + d <? 2000 then ShowsCopied else ShowsIcon) /\
    (2000 <= gap + d -> d < 2000 -> timers s3 = [t0 + gap + 2000]).
Proof.
  intros r cmd t0 gap d Hne Hg s2 s3.
  assert (E : s2 = mkInstance (RStr cmd) true true (t0 + gap)
                     [t0 + 2000; t0 + gap + 2000] [] [cmd; cmd] (Some cmd) 0 0)
    by (apply two_copies_state; assumption).
  assert (Hc : copied s3 = (gap + d <? 2000)).
  { unfold s3; simpl. rewrite advance_copied, E; simpl. unfold due.
    destruct (N.leb_spec (t0 + 2000) (t0 + gap + d));
      destruct (N.leb_spec (t0 + gap + 2000) (t0 + gap + d));
      destruct (N.ltb_spec (gap + d) 2000); simpl; auto; lia. }
  split; [now rewrite E|].
  split; [now rewrite E|].
  split; [exact Hc|].
  split; [unfold label; now rewrite Hc|].
  intros Hge Hlt. unfold s3; simpl. rewrite advance_timers, E; simpl.
  unfold due.
  destruct (N.leb_spec (t0 + 2000) (t0 + gap + d));
    destruct (N.leb_spec (t0 + gap + 2000) (t0 + gap + d)); simpl;
    try reflexivity; lia.
Qed.

Lemma second_copy_keeps_first_reset_witness :
  timers (run Modal.handleCopy (init (RStr "ls"))
            [Tick 0; Click; Resolve 0; Tick 1000; Click; Resolve 0])
  = [2000; 3000] /\
  copied (run Modal.handleCopy (init (RStr "ls"))
            [Tick 0; Click; Resolve 0; Tick 1000; Click; Resolve 0; Tick 1000])
  = false /\
  timers (run Modal.handleCopy (init (RStr "ls"))
            [Tick 0; Click; Resolve 0; Tick 1000; Click; Resolve 0; Tick 1000])
  = [3000].
Proof.
  destruct (second_copy_keeps_first_reset Stepwise "ls" 0 1000 1000)
    as (Ht & _ & Hc & _ & Hlate).
  - discriminate.
  - reflexivity.
  - split; [exact Ht|]. split; [exact Hc|].
    apply Hlate.
    + discriminate.
    + reflexivity.
Defined.

(** C3, as stated, fails: after copy, fulfilment and unmount the reset is
    still pending, and 2000 ms later it calls the setter on the unmounted
    instance. *)
Lemma cleanup_on_unmount_fails : ~ Claims.cleanup_on_unmount.
Proof.
  intros H.
  destruct (H Stepwise (RStr "ls") [Click; Resolve 0] [Tick 2000]) as [H1 _].
  vm_compute in H1. discriminate.
Qed.

(** C3, amended.  Unmounting cancels nothing: every pending reset stays
    scheduled.  When its deadline passes, its callback runs and calls the
    setter on the unmounted instance, once per reset that came due; no
    rendered state changes by it. *)
Theorem unmount_leaves_reset_pending :
  forall (r : Revision) (s : Instance) (d : N),
    let u := step (handleCopyOf r) s Unmount in
    let u' := step (handleCopyOf r) u (Tick d) in
    mounted u = false /\ timers u = timers s /\
    copied u' = copied s /\
    stale u' = (stale s + length (filter (due (now s + d)) (timers s)))%nat /\
    timers u' = filter (fun x => negb (due (now s + d) x)) (timers s).
Proof.
  intros r s d; simpl.
  rewrite advance_copied, advance_stale, advance_timers; simpl.
  repeat split.
Qed.

End CopyControl.

(* ------------------------------------------------------------------ *)
(** ** Strings: [includes] decides [Substring] *)

Module StrFacts.
Import Str.

Lemma prefix_app (x b : string) : prefix x (x ++ b) = true.
Proof.
  induction x as [|c x IH]; simpl; [now destruct b|].
  destruct (ascii_dec c c); [exact IH | congruence].
Qed.

Lemma prefix_split (x s : string) :
  prefix x s = true -> exists b, s = x ++ b.
Proof.
  revert s; induction x as [|c x IH]; intros s H.
  - now exists s.
  - destruct s as [|c' s]; simpl in H; [discriminate|].
    destruct (ascii_dec c c') as [->|]; [|discriminate].
    destruct (IH s H) as [b ->]. now exists b.
Qed.

Lemma includes_cons (x : string) (c : ascii) (s : string) :
  includes x (String c s) = prefix x (String c s) || includes x s.
Proof. reflexivity. Qed.

Lemma includes_spec (x s : string) :
  includes x s = true <-> Substring x s.
Proof.
  split.
  - induction s as [|c s IH]; intros H.
    + destruct x; [|discriminate].
      now exists EmptyString, EmptyString.
    + rewrite includes_cons in H. apply orb_true_iff in H as [H|H].
      * destruct (prefix_split _ _ H) as [b Hb].
        exists EmptyString, b. exact Hb.
      * destruct (IH H) as (a & b & ->). now exists (String c a), b.
  - intros (a & b & ->). induction a as [|c a IH].
    + change (EmptyString ++ x ++ b) with (x ++ b).
      destruct (x ++ b) as [|c t] eqn:E.
      * destruct x; [reflexivity | discriminate].
      * rewrite includes_cons, <- E, prefix_app. reflexivity.
    + change (String c a ++ x ++ b) with (String c (a ++ x ++ b)).
      rewrite includes_cons, IH. apply orb_true_r.
Qed.

Lemma append_assoc (a b c : string) : (a ++ b) ++ c = a ++ b ++ c.
Proof. induction a; simpl; congruence. Qed.

Lemma Substring_left (x y s : string) :
  Substring (x ++ y) s -> Substring x s.
Proof.
  intros (a & b & ->). exists a, (y ++ b). now rewrite append_assoc.
Qed.

End StrFacts.

(* ------------------------------------------------------------------ *)
(** ** Rendering and clicks *)

Module DomFacts.
Import JS Dom Str.

Ltac split_flags :=
  repeat match goal with
         | |- context [if ?f ?k then _ else _] => destruct (f k)
         end.

Lemma Modal_server_blocks connection copiedAt :
  commandTexts (Modal.serverSection connection copiedAt) =
  [ "firewall-cmd --get-default-zone";
    "sudo firewall-cmd --zone=$(firewall-cmd --get-default-zone) --add-port=4713/tcp --permanent";
    "sudo firewall-cmd --reload && sudo firewall-cmd --zone=$(firewall-cmd --get-default-zone) --list-ports";
    "pactl load-module module-native-protocol-tcp auth-ip-acl=127.0.0.1;"
      ++ clientIp connection ].
Proof. cbn. split_flags; reflexivity. Qed.

Lemma Modal_client_blocks connection copiedAt :
  commandTexts (Modal.clientSection connection copiedAt) =
  [ "nc -zv " ++ serverIp connection ++ " 4713";
    "export PULSE_SERVER=tcp:" ++ serverIp connection;
    "mpv --ao=pulse " ++ dq ++ "https://www.youtube.com/watch?v=dQw4w9WgXcQ"
      ++ dq ].
Proof. cbn. split_flags; reflexivity. Qed.

Lemma Part000_server_blocks connection copiedAt :
  commandTexts (Part000.serverSection connection copiedAt) =
  [ Part000.serverCommands connection ].
Proof. cbn. split_flags; reflexivity. Qed.

Lemma Part000_client_blocks connection copiedAt :
  commandTexts (Part000.clientSection connection copiedAt) =
  [ Part000.clientCommands connection ].
Proof. cbn. split_flags; reflexivity. Qed.

(** *** Bubbling *)

Lemma closeCalls_app (a b : list (nat * Handler)) :
  closeCalls (a ++ b) = (closeCalls a + closeCalls b)%nat.
Proof. unfold closeCalls. now rewrite filter_app, length_app. Qed.

(** A click below a node that stops propagation goes no further. *)
Lemma click_stop path n d log go :
  handlerOf n = StopPropagation ->
  click d n path = Some (log, go) -> go = false.
Proof.
  intros Hh H; destruct path as [|i rest]; simpl in H; rewrite Hh in H.
  - simpl in H. congruence.
  - destruct (nth_error (kidsOf n) i); [|discriminate].
    destruct (click (S d) n0 rest) as [[l [|]]|]; simpl in H; congruence.
Qed.

(** Only the target and its ancestors are visited. *)
Lemma click_depth path : forall n d log go,
  click d n path = Some (log, go) ->
  forallb (fun x => Nat.leb d (fst x)) log = true.
Proof.
  induction path as [|i rest IH]; intros n d log go H; simpl in H.
  - destruct (handlerOf n); simpl in H; inversion H; subst; simpl;
      rewrite ?Nat.leb_refl; reflexivity.
  - destruct (nth_error (kidsOf n) i) as [k|]; [|discriminate].
    destruct (click (S d) k rest) as [[l g]|] eqn:E; [|discriminate].
    assert (Hl : forallb (fun x => Nat.leb d (fst x)) l = true).
    { apply forallb_forall. intros x Hx.
      pose proof (IH _ _ _ _ E) as Hall.
      rewrite forallb_forall in Hall. specialize (Hall x Hx).
      apply Nat.leb_le in Hall. apply Nat.leb_le. lia. }
    destruct g.
    + destruct (handlerOf n); simpl in H; inversion H; subst;
        rewrite forallb_app, Hl; simpl; rewrite ?Nat.leb_refl; reflexivity.
    + inversion H; subst. exact Hl.
Qed.

Lemma deeper_not_ranAt (d : nat) (log : list (nat * Handler)) :
  forallb (fun x => Nat.leb (S d) (fst x)) log = true -> ranAt d log = false.
Proof.
  unfold ranAt; induction log as [|x log IH]; [reflexivity|].
  cbn [forallb existsb].
  intros H; apply andb_true_iff in H as [Hx Hl].
  rewrite (IH Hl), orb_false_r.
  apply Nat.leb_le in Hx. apply Nat.eqb_neq. lia.
Qed.

(** No [onClose] in the subtree, none in the log. *)
Lemma closeFree_click path : forall n d log go,
  closeFree n = true ->
  click d n path = Some (log, go) -> closeCalls log = 0%nat.
Proof.
  induction path as [|i rest IH]; intros n d log go Hf H; simpl in H.
  - destruct n as [t|tag h ks]; simpl in *.
    + inversion H; reflexivity.
    + destruct h; simpl in *; try discriminate; inversion H; reflexivity.
  - destruct (nth_error (kidsOf n) i) as [k|] eqn:Ek; [|discriminate].
    assert (Hk : closeFree k = true).
    { destruct n as [t|tag h ks]; simpl in *.
      - destruct i; discriminate.
      - apply andb_true_iff in Hf as [_ Hks].
        rewrite forallb_forall in Hks. apply Hks.
        eapply nth_error_In; eauto. }
    destruct (click (S d) k rest) as [[l g]|] eqn:E; [|discriminate].
    pose proof (IH _ _ _ _ Hk E) as Hl.
    destruct g.
    + destruct n as [t|tag h ks]; simpl in *.
      * inversion H; subst. rewrite closeCalls_app, Hl. reflexivity.
      * destruct h; simpl in *; try discriminate; inversion H; subst;
          rewrite closeCalls_app, Hl; reflexivity.
    + inversion H; subst. exact Hl.
Qed.

(** The shell both revisions share: backdrop, panel, header with the close
    button, body. *)
Lemma shell_clicks (heading body : Node) :
  closeFree heading = true -> closeFree body = true ->
  let modal :=
    Elem "div" OnClose
      [ Elem "div" StopPropagation
          [ el "div" [ heading; Elem "button" OnClose [ XIcon ] ]; body ] ] in
  click 0 modal [] = Some ([(0%nat, OnClose)], true) /\
  forall path log go,
    insidePanel path = true ->
    click 0 modal path = Some (log, go) ->
    go = false /\ ranAt 0 log = false /\
    closeCalls log = (if onCloseButton path then 1 else 0)%nat.
Proof.
  intros Hh Hb modal; split; [reflexivity|].
  intros path log go Hin H.
  destruct path as [|[|i] path]; try discriminate. clear Hin.
  unfold modal in H. cbn [click kidsOf nth_error handlerOf] in H.
  match type of H with
  | context [click 1 ?p path] =>
      destruct (click 1 p path) as [[l g]|] eqn:E; [|discriminate];
      assert (Hg : g = false)
        by (eapply click_stop; [|exact E]; reflexivity);
      pose proof (click_depth _ _ _ _ _ E) as Hd
  end.
  subst g. inversion H; subst l go; clear H.
  split; [reflexivity|]. split; [now apply deeper_not_ranAt|].
  destruct path as [|[|[|j]] path]; cbn [click kidsOf nth_error handlerOf] in E.
  - inversion E; reflexivity.
  - (* the header *)
    match type of E with
    | context [click 2 ?p path] =>
        destruct (click 2 p path) as [[l g]|] eqn:E2; [|discriminate]
    end.
    assert (Hl : closeCalls l = (if onCloseButton (O :: O :: path) then 1 else 0)%nat).
    { destruct path as [|[|[|j]] path];
        cbn [click kidsOf nth_error handlerOf el] in E2.
      - inversion E2; reflexivity.
      - destruct (click 3 heading path) as [[l' g']|] eqn:E3; [|discriminate].
        pose proof (closeFree_click _ _ _ _ _ Hh E3) as H3.
        destruct g'; inversion E2; subst; simpl;
          rewrite ?closeCalls_app, H3; reflexivity.
      - destruct path as [|[|j] [|k path]]; cbn in E2;
          try (destruct k; cbn in E2); try (destruct j; cbn in E2);
          try discriminate; inversion E2; reflexivity.
      - destruct j; discriminate. }
    destruct g; inversion E; subst; rewrite ?closeCalls_app, Hl.
    all: destruct path as [|[|[|j]] path]; simpl; reflexivity.
  - (* the body *)
    destruct (click 2 body path) as [[l g]|] eqn:E2; [|discriminate].
    pose proof (closeFree_click _ _ _ _ _ Hb E2) as H2.
    destruct g; inversion E; subst; simpl; rewrite ?closeCalls_app, H2;
      reflexivity.
  - destruct j; discriminate.
Qed.

Lemma modal_bodies_closeFree r connection copiedAt :
  closeFree (el "div" [ serverSectionOf r connection copiedAt;
                        clientSectionOf r connection copiedAt ]) = true.
Proof. destruct r; cbn; split_flags; reflexivity. Qed.

End DomFacts.

(* ------------------------------------------------------------------ *)
(** ** The modal *)

Section ModalProperties.
Import JS Dom Str StrFacts DomFacts.

(** C4. Rendered for the Office connection, components/InstructionsModal.tsx
    shows a client block containing [nc -zv 10.0.0.5 4713] and a server block
    containing [auth-ip-acl=127.0.0.1;10.0.0.9].  The unnamed revision shows
    the client text as well, but no server block of it contains
    [auth-ip-acl=127.0.0.1;10.0.0.9]: its server block reads
    [auth-ip-acl=127.0.0.1;${connection.clientIp}], the placeholder itself,
    and is the same text for every connection. *)
Theorem office_command_blocks :
  forall copiedAt : nat -> bool,
    existsb (includes "nc -zv 10.0.0.5 4713")
            (commandTexts (Modal.clientSection office copiedAt)) = true /\
    existsb (includes "auth-ip-acl=127.0.0.1;10.0.0.9")
            (commandTexts (Modal.serverSection office copiedAt)) = true /\
    existsb (includes "nc -zv 10.0.0.5 4713")
            (commandTexts (Part000.clientSection office copiedAt)) = true /\
    existsb (includes "auth-ip-acl=127.0.0.1;10.0.0.9")
            (commandTexts (Part000.serverSection office copiedAt)) = false /\
    existsb (includes "auth-ip-acl=127.0.0.1;${connection.clientIp}")
            (commandTexts (Part000.serverSection office copiedAt)) = true /\
    (forall connection : Connection,
        Part000.serverCommands connection = Part000.serverCommands office).
Proof.
  intros copiedAt.
  rewrite Modal_client_blocks, Modal_server_blocks,
    Part000_client_blocks, Part000_server_blocks.
  repeat split; vm_compute; reflexivity.
Qed.

(** C8, as stated, fails: the client block of the unnamed revision, rendered
    for the Office connection, holds no mpv command of the quoted form. *)
Lemma client_commands_fails : ~ Claims.client_commands.
Proof.
  intros H.
  destruct (H SingleBlock office (fun _ => false))
    as (_ & _ & (b & url & Hin & Hsub)).
  simpl in Hin. destruct Hin as [<-|[]].
  apply (Substring_left ("mpv --ao=pulse " ++ dq) (url ++ dq)) in Hsub.
  apply includes_spec in Hsub. vm_compute in Hsub. discriminate.
Qed.

(** C8, amended.  For every connection, the client command blocks of
    components/InstructionsModal.tsx are exactly [nc -zv <serverIp> 4713],
    [export PULSE_SERVER=tcp:<serverIp>] and
    [mpv --ao=pulse "https://www.youtube.com/watch?v=dQw4w9WgXcQ"], the
    address substituted verbatim.  The unnamed revision has one client block;
    it contains the same nc and export commands, and its mpv command is
    [mpv --vo=x11 --ao=pulse https://www.youtube.com/watch?v=dQw4w9WgXcQ]. *)
Theorem client_command_blocks :
  forall (connection : Connection) (copiedAt : nat -> bool),
    commandTexts (Modal.clientSection connection copiedAt) =
    [ "nc -zv " ++ serverIp connection ++ " 4713";
      "export PULSE_SERVER=tcp:" ++ serverIp connection;
      "mpv --ao=pulse " ++ dq
        ++ "https://www.youtube.com/watch?v=dQw4w9WgXcQ" ++ dq ] /\
    commandTexts (Part000.clientSection connection copiedAt) =
    [ Part000.clientCommands connection ] /\
    Substring ("nc -zv " ++ serverIp connection ++ " 4713")
              (Part000.clientCommands connection) /\
    Substring ("export PULSE_SERVER=tcp:" ++ serverIp connection)
              (Part000.clientCommands connection) /\
    Substring "mpv --vo=x11 --ao=pulse https://www.youtube.com/watch?v=dQw4w9WgXcQ"
              (Part000.clientCommands connection).
Proof.
  intros connection copiedAt.
  split; [apply Modal_client_blocks|].
  split; [apply Part000_client_blocks|].
  set (ip := serverIp connection).
  split; [|split].
  - exists ("# 1. Test connection to the server's PulseAudio port." ++ nl
            ++ "# If this command says " ++ dq ++ "succeeded!" ++ dq
            ++ ", you're ready for the next step." ++ nl).
    eexists. unfold Part000.clientCommands. fold ip.
    repeat (progress (cbn; rewrite ?append_assoc)). reflexivity.
  - exists ("# 1. Test connection to the server's PulseAudio port." ++ nl
            ++ "# If this command says " ++ dq ++ "succeeded!" ++ dq
            ++ ", you're ready for the next step." ++ nl
            ++ "nc -zv " ++ ip ++ " 4713" ++ nl ++ nl
            ++ "# 2. Set the PULSE_SERVER environment variable." ++ nl
            ++ "# This tells applications on this client machine to send their audio to the server."
            ++ nl).
    eexists. unfold Part000.clientCommands. fold ip.
    repeat (progress (cbn; rewrite ?append_assoc)). reflexivity.
  - exists ("# 1. Test connection to the server's PulseAudio port." ++ nl
            ++ "# If this command says " ++ dq ++ "succeeded!" ++ dq
            ++ ", you're ready for the next step." ++ nl
            ++ "nc -zv " ++ ip ++ " 4713" ++ nl ++ nl
            ++ "# 2. Set the PULSE_SERVER environment variable." ++ nl
            ++ "# This tells applications on this client machine to send their audio to the server."
            ++ nl ++ "export PULSE_SERVER=tcp:" ++ ip ++ nl ++ nl
            ++ "# 3. Test with an application, like mpv." ++ nl
            ++ "# The video will play locally, but the audio should come from the server's speakers."
            ++ nl).
    exists EmptyString. unfold Part000.clientCommands. fold ip.
    repeat (progress (cbn; rewrite ?append_assoc)). reflexivity.
Qed.

(** C9, as stated, fails: the close button lies inside the content panel, and
    a click on it calls [onClose]. *)
Lemma content_clicks_never_close_fails : ~ Claims.content_clicks_never_close.
Proof.
  intros H.
  specialize (H Stepwise office (fun _ => false) [0; 0; 1]%nat
                [(3%nat, OnClose)] false eq_refl eq_refl).
  discriminate.
Qed.

(** C9, amended.  In either revision a click on the backdrop calls [onClose]
    exactly once.  A click anywhere inside the content panel never reaches
    the backdrop: propagation stops at the panel and the backdrop's handler
    does not run.  Such a click calls [onClose] exactly once when it lands on
    the close button (or its icon), through the button's own handler, and
    zero times anywhere else. *)
Theorem click_containment :
  forall (r : Revision) (connection : Connection) (copiedAt : nat -> bool),
    let modal := modalOf r connection copiedAt in
    (exists log go, click 0 modal [] = Some (log, go) /\
                    closeCalls log = 1%nat) /\
    forall (path : list nat) (log : list (nat * Handler)) (go : bool),
      insidePanel path = true ->
      click 0 modal path = Some (log, go) ->
      go = false /\ ranAt 0 log = false /\
      closeCalls log = (if onCloseButton path then 1 else 0)%nat.
Proof.
  intros r connection copiedAt modal.
  pose proof (modal_bodies_closeFree r connection copiedAt) as Hbody.
  destruct r.
  - destruct (shell_clicks
                (el "h2" [ Text ("Setup: " ++ dq); Text (name connection);
                           Text dq ])
                _ eq_refl Hbody) as [H0 Hin].
    split; [exists [(0%nat, OnClose)], true; split; [exact H0 | reflexivity]|].
    exact Hin.
  - destruct (shell_clicks
                (el "h2" [ Text ("Setup Instructions for " ++ dq);
                           Text (name connection); Text dq ])
                _ eq_refl Hbody) as [H0 Hin].
    split; [exists [(0%nat, OnClose)], true; split; [exact H0 | reflexivity]|].
    exact Hin.
Qed.

Lemma click_containment_witness :
  false = false /\ ranAt 0 [(7%nat, HandleCopy)] = false /\
  closeCalls [(7%nat, HandleCopy)]
  = (if onCloseButton [0; 1; 0; 2; 0; 2; 0]%nat then 1 else 0)%nat.
Proof.
  apply (proj2 (click_containment Stepwise office (fun _ => false))
               [0; 1; 0; 2; 0; 2; 0]%nat [(7%nat, HandleCopy)] false).
  - reflexivity.
  - reflexivity.
Defined.

End ModalProperties.

(* ------------------------------------------------------------------ *)
(** ** Invariants of the copy control over whole runs *)

Module RunFacts.
Import JS CopyState CopyStateFacts Measures.
#[local] Arguments N.add : simpl never.
#[local] Arguments N.leb : simpl never.
#[local] Arguments N.ltb : simpl never.

(** What holds on mount and is kept by every step holds after every run. *)
Lemma run_induction (h : Instance -> Instance) (P : Instance -> Prop) :
  (forall s e, P s -> P (step h s e)) ->
  forall evs s, P s -> P (run h s evs).
Proof.
  intros Hstep evs; induction evs as [|e evs IH]; intros s Hs; [exact Hs|].
  rewrite run_cons. apply IH, Hstep, Hs.
Qed.

Lemma step_now r s e :
  now (step (handleCopyOf r) s e)
  = now s + match e with Tick d => d | _ => 0 end.
Proof.
  destruct e as [|i|i|d|c|]; simpl; rewrite ?N.add_0_r; try reflexivity.
  - destruct (mounted s); [|reflexivity].
    destruct (handleCopyOf_cases r s) as [E|[t E]]; now rewrite E.
  - destruct (nth_error (pending s) i); [|reflexivity].
    unfold_ops; simpl. now destruct (mounted s).
  - now destruct (nth_error (pending s) i).
  - apply advance_now.
  - now destruct (mounted s).
Qed.

Lemma run_now r evs : forall s,
  now (run (handleCopyOf r) s evs) = now s + elapsed evs.
Proof.
  induction evs as [|e evs IH]; intros s.
  - simpl. now rewrite N.add_0_r.
  - rewrite run_cons, IH, step_now.
    destruct e; cbn [elapsed fold_right]; fold (elapsed evs); lia.
Qed.

Lemma step_timers r s e :
  timers (step (handleCopyOf r) s e)
  = match e with
    | Resolve i =>
        match nth_error (pending s) i with
        | Some _ => (timers s ++ [now s + 2000])%list
        | None => timers s
        end
    | Tick d => filter (fun x => negb (due (now s + d) x)) (timers s)
    | _ => timers s
    end.
Proof.
  destruct e as [|i|i|d|c|]; simpl; try reflexivity.
  - destruct (mounted s); [|reflexivity].
    destruct (handleCopyOf_cases r s) as [E|[t E]]; now rewrite E.
  - destruct (nth_error (pending s) i); [|reflexivity].
    unfold_ops; simpl. now destruct (mounted s).
  - now destruct (nth_error (pending s) i).
  - apply advance_timers.
  - now destruct (mounted s).
Qed.

Lemma step_mounted r s e :
  mounted (step (handleCopyOf r) s e)
  = match e with Unmount => false | _ => mounted s end.
Proof.
  destruct e as [|i|i|d|c|]; simpl; try reflexivity.
  - destruct (mounted s) eqn:M; [|exact M].
    destruct (handleCopyOf_cases r s) as [E|[t E]]; now rewrite E.
  - destruct (nth_error (pending s) i); [|reflexivity].
    unfold_ops; simpl. now destruct (mounted s).
  - now destruct (nth_error (pending s) i).
  - apply advance_mounted.
  - now destruct (mounted s) eqn:M.
Qed.

Lemma filter_all {A : Type} (f : A -> bool) (l : list A) :
  existsb (fun x => negb (f x)) l = false -> filter f l = l.
Proof.
  induction l as [|x l IH]; simpl; [reflexivity|].
  intros H; apply orb_false_iff in H as [Hx Hl].
  apply negb_false_iff in Hx. rewrite Hx, (IH Hl). reflexivity.
Qed.

Lemma ahead_step r s e :
  Forall (ahead s) (timers s) ->
  Forall (ahead (step (handleCopyOf r) s e))
         (timers (step (handleCopyOf r) s e)).
Proof.
  intros H. unfold ahead in *. rewrite step_timers, step_now.
  destruct e as [|i|i|d|c|]; rewrite ?N.add_0_r; try exact H.
  - destruct (nth_error (pending s) i); [|exact H].
    apply Forall_app; split; [exact H|].
    constructor; [lia | constructor].
  - apply Forall_forall. intros t Ht.
    apply filter_In in Ht as [Hin Hnd].
    rewrite Forall_forall in H. specialize (H t Hin).
    apply negb_true_iff in Hnd. unfold due in Hnd.
    apply N.leb_gt in Hnd. lia.
Qed.

Lemma flag_has_reset_step r s e :
  (mounted s = true -> copied s = true -> timers s <> []) ->
  mounted (step (handleCopyOf r) s e) = true ->
  copied (step (handleCopyOf r) s e) = true ->
  timers (step (handleCopyOf r) s e) <> [].
Proof.
  intros IH Hm Hc. rewrite step_mounted in Hm. rewrite step_timers.
  destruct e as [|i|i|d|c|]; try discriminate.
  - simpl in Hc. rewrite Hm in Hc.
    destruct (handleCopyOf_cases r s) as [E|[t E]]; rewrite E in Hc;
      apply IH; assumption.
  - destruct (nth_error (pending s) i) eqn:E.
    + intros Habs. now apply app_eq_nil in Habs as [_ Habs].
    + simpl in Hc. rewrite E in Hc. now apply IH.
  - simpl in Hc. destruct (nth_error (pending s) i); now apply IH.
  - simpl in Hc. rewrite advance_copied, Hm in Hc.
    apply andb_true_iff in Hc as [Hc Hnd]. apply negb_true_iff in Hnd.
    rewrite filter_all; [now apply IH|].
    rewrite <- Hnd. clear. induction (timers s) as [|x l IHl]; simpl;
      [reflexivity|]. now rewrite negb_involutive, IHl.
  - simpl in Hc. rewrite Hm in Hc. now apply IH.
Qed.

(** Quiet events schedule nothing. *)
Lemma quiet_timers r evs : forall s t,
  forallb quiet evs = true ->
  In t (timers (run (handleCopyOf r) s evs)) -> In t (timers s).
Proof.
  induction evs as [|e evs IH]; intros s t Hq Hin; [exact Hin|].
  cbn [forallb] in Hq. apply andb_true_iff in Hq as [He Hq].
  rewrite run_cons in Hin. apply (IH _ _ Hq) in Hin.
  rewrite step_timers in Hin.
  destruct e as [|i|i|d|c|]; try discriminate; try exact Hin.
  now apply filter_In in Hin as [Hin _].
Qed.

Lemma quiet_mounted r evs : forall s,
  forallb quiet evs = true ->
  mounted (run (handleCopyOf r) s evs) = mounted s.
Proof.
  induction evs as [|e evs IH]; intros s Hq; [reflexivity|].
  cbn [forallb] in Hq. apply andb_true_iff in Hq as [He Hq].
  rewrite run_cons, (IH _ Hq), step_mounted.
  destruct e; try reflexivity; discriminate.
Qed.

Lemma reachable_ahead r c evs :
  Forall (ahead (run (handleCopyOf r) (init c) evs))
         (timers (run (handleCopyOf r) (init c) evs)).
Proof.
  apply (run_induction (handleCopyOf r)
           (fun s => Forall (ahead s) (timers s))).
  - intros s e. apply ahead_step.
  - constructor.
Qed.

Lemma reachable_flag_has_reset r c evs :
  let s := run (handleCopyOf r) (init c) evs in
  mounted s = true -> copied s = true -> timers s <> [].
Proof.
  apply (run_induction (handleCopyOf r)
           (fun s => mounted s = true -> copied s = true -> timers s <> [])).
  - intros s e. apply flag_has_reset_step.
  - discriminate.
Qed.

End RunFacts.

Section RunProperties.
Import JS CopyState CopyStateFacts Measures RunFacts.

(** X1. After any sequence of events from mount, in either revision, every
    pending reset has its deadline strictly ahead of the clock and at most
    2000 ms ahead: no reset is overdue and none is scheduled further away
    than the fixed delay. *)
Theorem pending_resets_within_2000ms :
  forall (r : Revision) (c : ReactNode) (evs : list Event),
    let s := run (handleCopyOf r) (init c) evs in
    Forall (fun t => now s < t /\ t <= now s + 2000) (timers s).
Proof. intros r c evs. apply reachable_ahead. Qed.

(** X2. After any sequence of events from mount, a mounted instance whose
    label reads Copied! has a reset pending: the label cannot be left stuck
    without a timer that will clear it. *)
Theorem copied_flag_has_pending_reset :
  forall (r : Revision) (c : ReactNode) (evs : list Event),
    let s := run (handleCopyOf r) (init c) evs in
    mounted s = true -> copied s = true ->
    exists t, In t (timers s) /\ now s < t /\ t <= now s + 2000.
Proof.
  intros r c evs s Hm Hc.
  pose proof (reachable_flag_has_reset r c evs Hm Hc) as Hne.
  pose proof (reachable_ahead r c evs) as Ha. fold s in Hne, Ha.
  destruct (timers s) as [|t l] eqn:E; [congruence|].
  exists t. split; [now left|]. now inversion Ha.
Qed.

Lemma copied_flag_has_pending_reset_witness :
  exists t,
    In t (timers (run Modal.handleCopy (init (RStr "ls"))
                    [Click; Resolve 0; Tick 500; Click; Resolve 0; Tick 1000]))
    /\ 1500 < t /\ t <= 1500 + 2000.
Proof.
  apply (copied_flag_has_pending_reset Stepwise (RStr "ls")
           [Click; Resolve 0; Tick 500; Click; Resolve 0; Tick 1000]).
  - reflexivity.
  - reflexivity.
Defined.

(** X3. From any state reached from mount with the instance still mounted,
    once 2000 ms have passed without another write being fulfilled (time
    passing in any pieces, clicks, rejections and re-renders in between), the
    flag is false and no reset is pending, however many copies overlapped
    before. *)
Theorem flag_clears_within_2000ms_of_last_success :
  forall (r : Revision) (c : ReactNode) (evs later : list Event),
    let s := run (handleCopyOf r) (init c) evs in
    mounted s = true ->
    forallb quiet later = true -> 2000 <= elapsed later ->
    copied (run (handleCopyOf r) s later) = false /\
    timers (run (handleCopyOf r) s later) = [].
Proof.
  intros r c evs later s Hm Hq Hlong.
  assert (Hnone : timers (run (handleCopyOf r) s later) = []).
  { destruct (timers (run (handleCopyOf r) s later)) as [|t l] eqn:E;
      [reflexivity|exfalso].
    assert (Hin : In t (timers (run (handleCopyOf r) s later)))
      by (rewrite E; now left).
    pose proof (quiet_timers r later s t Hq Hin) as Hold.
    pose proof (reachable_ahead r c evs) as Ha. fold s in Ha.
    rewrite Forall_forall in Ha. destruct (Ha t Hold) as [_ Hle].
    pose proof (reachable_ahead r c (evs ++ later)) as Hb.
    unfold run in Hb. rewrite fold_left_app in Hb.
    fold (run (handleCopyOf r) (init c) evs) in Hb. fold s in Hb.
    fold (run (handleCopyOf r) s later) in Hb.
    rewrite Forall_forall in Hb. destruct (Hb t Hin) as [Hlt _].
    rewrite run_now in Hlt. lia. }
  split; [|exact Hnone].
  destruct (copied (run (handleCopyOf r) s later)) eqn:Hc; [|reflexivity].
  exfalso.
  pose proof (reachable_flag_has_reset r c (evs ++ later)) as Hr.
  unfold run in Hr. rewrite fold_left_app in Hr.
  fold (run (handleCopyOf r) (init c) evs) in Hr. fold s in Hr.
  fold (run (handleCopyOf r) s later) in Hr.
  apply Hr; [|exact Hc|exact Hnone].
  now rewrite quiet_mounted.
Qed.

Lemma flag_clears_within_2000ms_of_last_success_witness :
  copied (run Modal.handleCopy
            (run Modal.handleCopy (init (RStr "ls"))
               [Click; Resolve 0; Tick 500; Click; Resolve 0])
            [Tick 1500; Click; Reject 0; Tick 500]) = false /\
  timers (run Modal.handleCopy
            (run Modal.handleCopy (init (RStr "ls"))
               [Click; Resolve 0; Tick 500; Click; Resolve 0])
            [Tick 1500; Click; Reject 0; Tick 500]) = [].
Proof.
  apply (flag_clears_within_2000ms_of_last_success Stepwise (RStr "ls")
           [Click; Resolve 0; Tick 500; Click; Resolve 0]
           [Tick 1500; Click; Reject 0; Tick 500]).
  - reflexivity.
  - reflexivity.
  - discriminate.
Defined.

End RunProperties.

(* ------------------------------------------------------------------ *)
(** ** Requests, payloads and the clipboard *)

Module RequestFacts.
Import JS CopyState CopyStateFacts Measures RunFacts.





Lemma toString_strings (l : list string) :
  map (fun e => match e with
                | RUndefined | RNull => EmptyString
                | _ => toString e
                end) (map RStr l) = l.
Proof. induction l as [|x l IH]; simpl; [reflexivity | now rewrite IH]. Qed.

Lemma displayed_strings (l : list string) :
  map displayed (map RStr l) = l.
Proof. induction l as [|x l IH]; simpl; [reflexivity | now rewrite IH]. Qed.

End RequestFacts.

Section RequestProperties.
Import JS CopyState CopyStateFacts Measures RunFacts RequestFacts.
#[local] Arguments N.add : simpl never.
#[local] Arguments N.leb : simpl never.
#[local] Arguments N.ltb : simpl never.


(** X5. Clicks are not coalesced: k clicks in a row on a mounted block
    showing a non-empty command issue k requests, each with the command as
    payload, whether or not earlier ones are still pending; the flag and the
    timers are untouched until a request is fulfilled. *)
Theorem clicks_are_not_coalesced :
  forall (r : Revision) (cmd : string) (k : nat) (s : Instance),
    cmd <> EmptyString -> mounted s = true -> children s = RStr cmd ->
    let s' := run (handleCopyOf r) s (repeat Click k) in
    writes s' = (writes s ++ repeat cmd k)%list /\
    pending s' = (pending s ++ repeat cmd k)%list /\
    copied s' = copied s /\ timers s' = timers s.
Proof.
  intros r cmd k; induction k as [|k IH]; intros s Hne Hm Hc.
  - simpl. rewrite !app_nil_r. repeat split.
  - cbn [repeat]. rewrite run_cons.
    assert (E : step (handleCopyOf r) s Click = writeText cmd s)
      by (simpl; rewrite Hm; now apply handleCopyOf_string).
    rewrite E.
    destruct (IH (writeText cmd s) Hne Hm Hc) as (Hw & Hp & Hf & Ht).
    cbv zeta in Hw, Hp, Hf, Ht. cbv zeta.
    rewrite Hw, Hp, Hf, Ht. simpl.
    rewrite <- !app_assoc. repeat split.
Qed.

Lemma clicks_are_not_coalesced_witness :
  writes (run Modal.handleCopy (init (RStr "sudo firewall-cmd --reload"))
            [Click; Click; Click])
  = ["sudo firewall-cmd --reload"; "sudo firewall-cmd --reload";
     "sudo firewall-cmd --reload"].
Proof.
  destruct (clicks_are_not_coalesced Stepwise "sudo firewall-cmd --reload"
              3%nat (init (RStr "sudo firewall-cmd --reload")))
    as (Hw & _).
  - discriminate.
  - reflexivity.
  - reflexivity.
  - exact Hw.
Defined.

(** X6. The payload is fixed when the button is clicked: if the parent
    re-renders the block with another text while the request is pending, the
    fulfilment still puts the text shown at the time of the click on the
    clipboard and raises the flag, although the block now shows the new
    text. *)
Theorem payload_is_fixed_at_click :
  forall (r : Revision) (a : string) (c' : ReactNode) (s : Instance),
    a <> EmptyString -> mounted s = true -> children s = RStr a ->
    let s' := run (handleCopyOf r) s
                [Click; Rerender c'; Resolve (length (pending s))] in
    clipboard s' = Some a /\ children s' = c' /\ copied s' = true.
Proof.
  intros r a c' s Hne Hm Hc.
  unfold run; cbn [fold_left].
  assert (E : step (handleCopyOf r) s Click = writeText a s)
    by (simpl; rewrite Hm; now apply handleCopyOf_string).
  rewrite E. simpl. rewrite Hm. simpl.
  rewrite nth_error_snoc. unfold_ops; simpl. rewrite ?Hm. repeat split.
Qed.

Lemma payload_is_fixed_at_click_witness :
  clipboard (run Modal.handleCopy (init (RStr "nc -zv 10.0.0.5 4713"))
               [Click; Rerender (RStr "nc -zv 10.0.0.6 4713"); Resolve 0])
  = Some "nc -zv 10.0.0.5 4713".
Proof.
  destruct (payload_is_fixed_at_click Stepwise "nc -zv 10.0.0.5 4713"
              (RStr "nc -zv 10.0.0.6 4713")
              (init (RStr "nc -zv 10.0.0.5 4713")))
    as (Hclip & _).
  - discriminate.
  - reflexivity.
  - reflexivity.
  - exact Hclip.
Defined.

(** X7. When the children are an array of strings, the block shows them run
    together, but the copy differs: the unnamed revision copies them joined
    by newlines (its Array.isArray branch), and
    components/InstructionsModal.tsx, which has no such branch, copies them
    joined by commas; an empty array passes its guard and copies the empty
    string. *)
Theorem array_children_are_joined :
  forall (lines : list string) (s : Instance),
    mounted s = true -> children s = RArr (map RStr lines) ->
    displayed (children s) = String.concat EmptyString lines /\
    writes (step Part000.handleCopy s Click)
    = (writes s ++ [Str.join Str.nl lines])%list /\
    writes (step Modal.handleCopy s Click)
    = (writes s ++ [Str.join "," lines])%list.
Proof.
  intros lines s Hm Hc; simpl. rewrite Hm.
  unfold Part000.handleCopy, Modal.handleCopy. rewrite Hc; simpl.
  rewrite toString_strings, displayed_strings. repeat split.
Qed.

Lemma array_children_are_joined_witness :
  writes (step Part000.handleCopy
               (init (RArr [RStr "sudo firewall-cmd --reload";
                            RStr "sudo firewall-cmd --list-ports"])) Click)
  = [ "sudo firewall-cmd --reload" ++ Str.nl
      ++ "sudo firewall-cmd --list-ports" ] /\
  writes (step Modal.handleCopy
               (init (RArr [RStr "sudo firewall-cmd --reload";
                            RStr "sudo firewall-cmd --list-ports"])) Click)
  = [ "sudo firewall-cmd --reload,sudo firewall-cmd --list-ports" ].
Proof.
  destruct (array_children_are_joined
              ["sudo firewall-cmd --reload"; "sudo firewall-cmd --list-ports"]
              (init (RArr [RStr "sudo firewall-cmd --reload";
                           RStr "sudo firewall-cmd --list-ports"])))
    as (_ & Hp & Hm).
  - reflexivity.
  - reflexivity.
  - split; [exact Hp | exact Hm].
Defined.

(** X8. In components/InstructionsModal.tsx a block whose children stay
    falsy (undefined, null, false or the empty string, also across
    re-renders) never issues a request over any sequence of events: nothing
    is written, nothing is pending, the clipboard is untouched, the flag stays
    false and no reset is ever scheduled. *)
Theorem falsy_children_never_copy :
  forall (c : ReactNode) (evs : list Event),
    truthy c = false -> forallb keepsFalsy evs = true ->
    let s := run Modal.handleCopy (init c) evs in
    writes s = [] /\ pending s = [] /\ clipboard s = None /\
    copied s = false /\ timers s = [].
Proof.
  intros c evs Hc Hk.
  assert (Hgen : forall s,
             truthy (children s) = false /\ writes s = [] /\ pending s = [] /\
             clipboard s = None /\ copied s = false /\ timers s = [] ->
             let s' := run Modal.handleCopy s evs in
             writes s' = [] /\ pending s' = [] /\ clipboard s' = None /\
             copied s' = false /\ timers s' = []).
  { clear c Hc. induction evs as [|e evs IH]; intros s Hs.
    - simpl. tauto.
    - cbn [forallb] in Hk. apply andb_true_iff in Hk as [He Hk].
      change (run Modal.handleCopy s (e :: evs))
        with (run Modal.handleCopy (step Modal.handleCopy s e) evs).
      apply (IH Hk). destruct Hs as (Hf & Hw & Hp & Hcl & Hco & Ht).
      destruct e as [|i|i|d|c'|]; simpl.
      + unfold Modal.handleCopy. rewrite Hf; simpl.
        destruct (mounted s); tauto.
      + rewrite Hp. destruct i; simpl; tauto.
      + rewrite Hp. destruct i; simpl; tauto.
      + change (advance d s) with (step (handleCopyOf Stepwise) s (Tick d)).
        rewrite step_timers, Ht. simpl.
        rewrite advance_copied, Hco.
        destruct (advance_requests d s) as (-> & -> & -> & ->).
        destruct (mounted s); tauto.
      + simpl in He. apply negb_true_iff in He.
        destruct (mounted s); simpl; tauto.
      + tauto. }
  apply Hgen. simpl. tauto.
Qed.

Lemma falsy_children_never_copy_witness :
  writes (run Modal.handleCopy (init (RStr EmptyString))
            [Click; Tick 100; Rerender RNull; Click; Resolve 0]) = [].
Proof.
  destruct (falsy_children_never_copy (RStr EmptyString)
              [Click; Tick 100; Rerender RNull; Click; Resolve 0])
    as (Hw & _).
  - reflexivity.
  - reflexivity.
  - exact Hw.
Defined.

(** X12. Unmounting does not cancel a pending clipboard request either.  If
    the block is removed after the click and the request is fulfilled
    afterwards, the text still reaches the clipboard and the reset is still
    scheduled; once its 2000 ms have passed, both setter calls (the one
    raising the flag and the one clearing it) have been addressed to the
    unmounted instance, whose flag is as it was. *)
Theorem late_fulfilment_after_unmount :
  forall (r : Revision) (cmd : string) (s : Instance) (d : N),
    cmd <> EmptyString -> mounted s = true -> children s = RStr cmd ->
    timers s = [] -> 2000 <= d ->
    let s1 := run (handleCopyOf r) s
                [Click; Unmount; Resolve (length (pending s))] in
    let s2 := step (handleCopyOf r) s1 (Tick d) in
    clipboard s1 = Some cmd /\ timers s1 = [now s + 2000] /\
    stale s1 = S (stale s) /\
    stale s2 = S (S (stale s)) /\ timers s2 = [] /\ copied s2 = copied s.
Proof.
  intros r cmd s d Hne Hm Hc Ht Hd.
  unfold run; cbn [fold_left].
  assert (E : step (handleCopyOf r) s Click = writeText cmd s)
    by (simpl; rewrite Hm; now apply handleCopyOf_string).
  rewrite E. cbn [step writeText pending mounted].
  rewrite nth_error_snoc.
  rewrite advance_stale, advance_timers, advance_copied.
  unfold onFulfilled, setTimeout, setCopied, settle; cbn.
  rewrite Ht; cbn. unfold due.
  destruct (N.leb_spec (now s + 2000) (now s + d)); [|lia]. cbn.
  repeat split. lia.
Qed.

Lemma late_fulfilment_after_unmount_witness :
  clipboard (run Modal.handleCopy (init (RStr "ls"))
               [Click; Unmount; Resolve 0]) = Some "ls" /\
  stale (run Modal.handleCopy (init (RStr "ls"))
           [Click; Unmount; Resolve 0; Tick 2000]) = 2%nat.
Proof.
  destruct (late_fulfilment_after_unmount Stepwise "ls" (init (RStr "ls"))
              2000)
    as (Hclip & _ & _ & Hstale & _).
  - discriminate.
  - reflexivity.
  - reflexivity.
  - reflexivity.
  - discriminate.
  - split; [exact Hclip | exact Hstale].
Defined.

End RequestProperties.

(* ------------------------------------------------------------------ *)
(** ** The rendered modal for every connection *)

Module RenderFacts.
Import JS Dom Str Measures DomFacts.

Lemma max_map_nth {A : Type} (f : A -> nat) (l : list A) (i : nat) (x : A) :
  nth_error l i = Some x ->
  (f x <= fold_right Nat.max 0 (map f l))%nat.
Proof.
  revert i; induction l as [|y l IH]; intros [|i] H; simpl in *;
    try discriminate.
  - inversion H; subst. lia.
  - specialize (IH i H). lia.
Qed.

(** [maxLog] bounds the log of every click in the subtree. *)
Lemma click_bound path : forall n d log go,
  click d n path = Some (log, go) ->
  (length log <= fst (maxLog n))%nat /\
  (go = true -> (length log <= snd (maxLog n))%nat).
Proof.
  induction path as [|i rest IH]; intros n d log go H; simpl in H.
  - destruct n as [t|tag h ks]; simpl in *.
    + inversion H; subst; simpl. split; auto.
    + destruct h; simpl in *; inversion H; subst; simpl; split;
        try discriminate; intros; lia.
  - destruct n as [t|tag h ks]; simpl in H.
    + destruct i; discriminate.
    + destruct (nth_error ks i) as [k|] eqn:Ek; [|discriminate].
      destruct (click (S d) k rest) as [[l g]|] eqn:E; [|discriminate].
      destruct (IH _ _ _ _ E) as [Ha Ho].
      pose proof (max_map_nth (fun k => fst (maxLog k)) ks i k Ek) as Hi.
      pose proof (max_map_nth (fun k => snd (maxLog k)) ks i k Ek) as Hu.
      simpl in Hi, Hu.
      destruct g.
      * specialize (Ho eq_refl).
        destruct h; simpl in *; inversion H; subst;
          rewrite length_app; simpl; split; try discriminate; intros; lia.
      * inversion H; subst.
        destruct h; simpl; split; try discriminate; lia.
Qed.

Lemma calls_le_length (log : list (nat * Handler)) :
  (closeCalls log + copyCalls log <= length log)%nat.
Proof.
  unfold closeCalls, copyCalls.
  induction log as [|[d h] log IH]; simpl; [lia|].
  destruct h; simpl; lia.
Qed.

Lemma modal_maxLog r connection copiedAt :
  fst (maxLog (modalOf r connection copiedAt)) = 1%nat.
Proof. destruct r; cbn; split_flags; reflexivity. Qed.

End RenderFacts.

Section RenderProperties.
Import JS Dom Str Measures DomFacts RenderFacts.

(** X9. For every connection, components/InstructionsModal.tsx shows exactly
    four server command blocks, in order: the three firewall commands, the
    same for every connection, and the pactl command ending in
    [auth-ip-acl=127.0.0.1;] followed by the client address as given, without
    escaping or validation (an empty address included). *)
Theorem server_command_blocks :
  forall (connection : Connection) (copiedAt : nat -> bool),
    commandTexts (Modal.serverSection connection copiedAt) =
    [ "firewall-cmd --get-default-zone";
      "sudo firewall-cmd --zone=$(firewall-cmd --get-default-zone) --add-port=4713/tcp --permanent";
      "sudo firewall-cmd --reload && sudo firewall-cmd --zone=$(firewall-cmd --get-default-zone) --list-ports";
      "pactl load-module module-native-protocol-tcp auth-ip-acl=127.0.0.1;"
        ++ clientIp connection ].
Proof. intros. apply Modal_server_blocks. Qed.

(** X10. For every connection, the headings of the modal show its fields
    verbatim: the title quotes the name, the server section names the server
    address and the client section the client address; the two revisions
    differ only in the wording of the title. *)
Theorem headings_show_connection :
  forall (connection : Connection) (copiedAt : nat -> bool),
    headings (Modal.InstructionsModal connection copiedAt) =
    [ "Setup: " ++ dq ++ name connection ++ dq;
      "On the Server Machine (" ++ serverIp connection ++ ")";
      "On the Client Machine (" ++ clientIp connection ++ ")" ] /\
    headings (Part000.InstructionsModal connection copiedAt) =
    [ "Setup Instructions for " ++ dq ++ name connection ++ dq;
      "On the Server Machine (" ++ serverIp connection ++ ")";
      "On the Client Machine (" ++ clientIp connection ++ ")" ].
Proof.
  intros connection copiedAt; split; cbn; split_flags; reflexivity.
Qed.

(** X11. In either revision, whatever element of the modal is clicked, at
    most one callback runs: a click never copies twice, never closes twice,
    and never both copies and closes. *)
Theorem one_action_per_click :
  forall (r : Revision) (connection : Connection) (copiedAt : nat -> bool)
         (path : list nat) (log : list (nat * Handler)) (go : bool),
    click 0 (modalOf r connection copiedAt) path = Some (log, go) ->
    (closeCalls log + copyCalls log <= 1)%nat.
Proof.
  intros r connection copiedAt path log go H.
  destruct (click_bound _ _ _ _ _ H) as [Hb _].
  rewrite modal_maxLog in Hb.
  pose proof (calls_le_length log). lia.
Qed.

Lemma one_action_per_click_witness :
  (closeCalls [(7%nat, HandleCopy)] + copyCalls [(7%nat, HandleCopy)] <= 1)%nat.
Proof.
  apply (one_action_per_click Stepwise office (fun _ => false)
           [0; 1; 0; 2; 0; 2; 0]%nat [(7%nat, HandleCopy)] false).
  reflexivity.
Defined.

End RenderProperties.
